(** * trading_api_wrappers.base: a shallow embedding and its properties

    The module [base.py] defines the [Server] descriptor, the [Client]
    dispatcher (throttle, signing hook, HTTP exchange, JSON decoding) and the
    [_Enum] lookup helper.  Python values are embedded in a small universe
    [value]; the dispatcher runs in a state-and-exception monad over the
    client object and a clock, and reports the calls it makes to the outside
    world ([time.sleep], [session.request], [response.json]) as events. *)

From Stdlib Require Import ZArith String Ascii List Floats.SpecFloat Lia.
From stdpp Require Import gmap strings list fin_maps pretty.

Local Open Scope Z_scope.

(** ** Python values *)

(** The values that travel through the dispatcher: request parameters,
    header maps, bodies and decoded JSON documents. *)
#[local] Unset Elimination Schemes.
Inductive value : Type :=
  | VNone
  | VBool (b : bool)
  | VInt (z : Z)
  | VFloat (f : spec_float)
  | VStr (s : string)
  | VList (l : list value)
  | VDict (m : gmap string value).
#[local] Set Elimination Schemes.

(** [bool(v)]: Python truthiness. *)
Definition truthy (v : value) : bool :=
  match v with
  | VNone => false
  | VBool b => b
  | VInt z => negb (z =? 0)
  | VFloat (S754_zero _) => false
  | VFloat _ => true
  | VStr s => negb (String.eqb s "")
  | VList l => negb (Nat.eqb (length l) 0)
  | VDict m => negb (bool_decide (m = ∅))
  end.

(** [d.get(key, default)] on a dict. *)
Definition dict_get (d : gmap string value) (key : string) (dflt : value) : value :=
  default dflt (d !! key).

#[global] Instance value_is_None_dec (v : value) : Decision (v = VNone).
Proof. destruct v; (left; reflexivity) || (right; discriminate). Defined.

(** ** Module constants *)

Record Retry := {
  total : Z;
  backoff_factor : Z;
  status_forcelist : list Z
}.

Definition TIMEOUT : Z := 30.

Definition RETRY : Retry := {|
  total := 3;
  backoff_factor := 2;
  status_forcelist := [400; 401; 403; 404; 408; 429; 500; 502; 503; 504]
|}.

(** ** class Server *)

Record Server := {
  PROTOCOL : string;
  HOST : string;
  VERSION : option string;
  URL : string
}.

(** [if version:] on an optional string. *)
Definition version_truthy (version : option string) : bool :=
  match version with
  | None => false
  | Some v => negb (String.eqb v "")
  end.

(** [str(version)], as the f-string formats it. *)
Definition version_str (version : option string) : string :=
  match version with
  | None => "None"
  | Some v => v
  end.

(** [Server.__init__(protocol, host, version=None)]. *)
Definition Server_init (protocol host : string) (version : option string) : Server :=
  let url := protocol +:+ "://" +:+ host in
  let url :=
    if version_truthy version then url +:+ "/" +:+ version_str version else url in
  {| PROTOCOL := protocol; HOST := host; VERSION := version; URL := url |}.

(** ** The HTTP session *)

(** The [retry] argument of [Client.__init__]: [None], a boolean, an attempt
    count or a policy object. *)
Inductive retry_arg :=
  | RetryNone
  | RetryBool (b : bool)
  | RetryInt (n : Z)
  | RetryPolicy (r : Retry).

Record HTTPAdapter := { max_retries : retry_arg }.

(** A session is known here by the adapters mounted on its URL prefixes. *)
Record Session := { adapters : gmap string HTTPAdapter }.

(** [requests.Session()]: both prefixes carry an adapter with the library's
    default of no retries. *)
Definition requests_Session : Session :=
  {| adapters := {[ "https://" := {| max_retries := RetryInt 0 |};
                    "http://" := {| max_retries := RetryInt 0 |} ]} |}.

Definition mount (prefix : string) (adapter : HTTPAdapter) (session : Session) : Session :=
  {| adapters := <[prefix := adapter]> (adapters session) |}.

(** ** class Client: the object and its class attributes *)

(** The instance attributes; [C_TIMEOUT] is [self.TIMEOUT], told apart from
    the module constant. *)
Record Client := {
  SERVER : Server;
  C_TIMEOUT : Z;
  session : Session;
  last_request_timestamp : Z
}.

(** [Client.__init__(server, timeout=TIMEOUT, retry=None)]. *)
Definition Client_init (server : Server) (timeout : Z) (retry : retry_arg) : Client :=
  let session := requests_Session in
  let retry :=
    match retry with
    | RetryBool true => RetryPolicy RETRY
    | _ => retry
    end in
  let adapter := {| max_retries := retry |} in
  let session := mount "http://" adapter session in
  let session := mount "https://" adapter session in
  {| SERVER := server; C_TIMEOUT := timeout; session := session;
     last_request_timestamp := 0 |}.

(** Class attributes and the overridable [sign] method; a subclass is a
    different record. *)
Record ClientClass := {
  error_key : string;
  enable_rate_limit : bool;
  rate_limit : Z;
  sign : string -> string -> value -> value -> gmap string value
}.

(** The base class: [error_key = ''], [enable_rate_limit = True],
    [rate_limit = 1000], and [sign] returns [{}]. *)
Definition Client_class : ClientClass := {|
  error_key := "";
  enable_rate_limit := true;
  rate_limit := 1000;
  sign := fun _ _ _ _ => ∅
|}.

(** ** The outside world *)

(** The keyword arguments of one [session.request] call. *)
Record Call := {
  c_method : string;
  c_url : string;
  c_headers : value;
  c_params : value;
  c_data : value;
  c_verify : bool;
  c_timeout : Z
}.

Record Response := {
  status_code : Z;
  text : string
}.

(** What the dispatcher asks of its libraries.  [json_loads] answers [None]
    where the parser raises [JSONDecodeError]; [transport] is the remote end,
    which sees the time (in microseconds) at which a call reaches it. *)
Class Platform := {
  json_dumps : value -> string;
  json_loads : string -> option value;
  urlparse_path : string -> string;
  transport : Z -> Call -> Response
}.

Inductive exn :=
  | HTTPError (r : Response)
  | JSONDecodeError
  | InvalidResponse (r : Response)
  | DecodeError
  | KeyError (key : string)
  | ValueError (msg : string).

(** Calls that leave the process, in the order they are made.  [EvSleep ms]
    is [time.sleep(ms / 1E3)]. *)
Inductive event :=
  | EvSleep (ms : Z)
  | EvSend (c : Call) (r : Response)
  | EvJson (r : Response).

(** The client object, the wall clock in microseconds since the epoch, and
    the time that each coming clock read, sleep and exchange will take on top
    of what was asked for.  The delays are naturals: time does not run
    backwards and a sleep is never cut short. *)
Record state := {
  self : Client;
  clock_us : Z;
  latencies : list N
}.

Record outcome (A : Type) := {
  result : exn + A;
  final : state;
  emitted : list event
}.
Arguments result {A} _.
Arguments final {A} _.
Arguments emitted {A} _.

Definition M (A : Type) : Type := state -> outcome A.

Definition ret {A} (a : A) : M A :=
  fun s => {| result := inr a; final := s; emitted := [] |}.

Definition raise {A} (e : exn) : M A :=
  fun s => {| result := inl e; final := s; emitted := [] |}.

(** [o], after the events [ev] that came before it. *)
Definition after {A} (ev : list event) (o : outcome A) : outcome A :=
  {| result := result o; final := final o; emitted := ev ++ emitted o |}.

Definition bind {A B} (m : M A) (k : A -> M B) : M B :=
  fun s =>
    let o := m s in
    match result o with
    | inl e => {| result := inl e; final := final o; emitted := emitted o |}
    | inr a => after (emitted o) (k a (final o))
    end.

(** [try: m except ...: handler]; a handler answering [None] does not catch. *)
Definition try_except {A} (m : M A) (handler : exn -> option (M A)) : M A :=
  fun s =>
    let o := m s in
    match result o with
    | inr _ => o
    | inl e =>
        match handler e with
        | None => o
        | Some h => after (emitted o) (h (final o))
        end
    end.

#[global] Instance M_ret : MRet M := @ret.
#[global] Instance M_bind : MBind M := fun A B k m => bind m k.

Definition gets {A} (f : state -> A) : M A :=
  fun s => {| result := inr (f s); final := s; emitted := [] |}.

Definition modify (f : state -> state) : M unit :=
  fun s => {| result := inr tt; final := f s; emitted := [] |}.

Definition emit (e : event) : M unit :=
  fun s => {| result := inr tt; final := s; emitted := [e] |}.

Definition advance (us : Z) (s : state) : state :=
  {| self := self s; clock_us := clock_us s + us; latencies := latencies s |}.

(** The next pending delay passes. *)
Definition elapse_state (s : state) : state :=
  {| self := self s;
     clock_us := clock_us s + Z.of_N (hd 0%N (latencies s));
     latencies := tl (latencies s) |}.

Definition elapse : M unit := modify elapse_state.

Definition set_last_request_timestamp (t : Z) (s : state) : state :=
  {| self := {| SERVER := SERVER (self s); C_TIMEOUT := C_TIMEOUT (self s);
                session := session (self s); last_request_timestamp := t |};
     clock_us := clock_us s;
     latencies := latencies s |}.

(** [time.time()], in microseconds. *)
Definition time_us : M Z := _ ← elapse; gets clock_us.

(** [time.sleep(ms / 1E3)]. *)
Definition sleep_ms (ms : Z) : M unit :=
  _ ← emit (EvSleep ms);
  _ ← modify (advance (ms * 1000));
  elapse.

(** ** class Client: the methods *)

(** Modelled from the spec: [clean_parameters] of [common.py], which is not
    among the sources; the spec has the body mapping serialized "after
    removing [None]-valued entries". *)
Definition clean_parameters (parameters : gmap string value) : gmap string value :=
  filter (fun kv => kv.2 <> VNone) parameters.

(** [data or {}] for an optional mapping. *)
Definition or_empty (data : option (gmap string value)) : gmap string value :=
  match data with
  | None => ∅
  | Some d => if bool_decide (d = ∅) then ∅ else d
  end.

Section Dispatcher.
Context {platform : Platform}.
Variable cls : ClientClass.

Definition seconds : M Z := us ← time_us; mret (us ÷ 1000000).
Definition milliseconds : M Z := us ← time_us; mret (us ÷ 1000).
Definition microseconds : M Z := time_us.

Definition throttle : M unit :=
  now ← milliseconds;
  last ← gets (fun s => last_request_timestamp (self s));
  let elapsed := now - last in
  if elapsed <? rate_limit cls then
    let delay := rate_limit cls - elapsed in
    sleep_ms delay
  else mret tt.

Definition url_for (endpoint : string) : M string :=
  server ← gets (fun s => SERVER (self s));
  mret (URL server +:+ "/" +:+ endpoint).

Definition url_path_for (endpoint : string) : M (string * string) :=
  url ← url_for endpoint;
  let path := urlparse_path url in
  mret (url, path).

Definition _encode_data (data : option (gmap string value)) : value :=
  let data := clean_parameters (or_empty data) in
  if truthy (VDict data) then VStr (json_dumps (VDict data)) else VDict data.

(** [session.request(...)]: the exchange takes its time, then the remote
    end answers. *)
Definition session_request (c : Call) : M Response :=
  _ ← elapse;
  t ← gets clock_us;
  let r := transport t c in
  _ ← emit (EvSend c r);
  mret r.

(** [response.raise_for_status()]: [HTTPError] on a 4xx or 5xx status. *)
Definition raise_for_status (response : Response) : M unit :=
  if (400 <=? status_code response) && (status_code response <? 600)
  then raise (HTTPError response)
  else mret tt.

(** [response.json()]. *)
Definition response_json (response : Response) : M value :=
  _ ← emit (EvJson response);
  match json_loads (text response) with
  | Some v => mret v
  | None => raise JSONDecodeError
  end.

Definition _decode_data (response : Response) : M value :=
  json_resp ← try_except (response_json response)
                (fun e => match e with
                          | JSONDecodeError => Some (raise DecodeError)
                          | _ => None
                          end);
  match json_resp with
  | VDict d =>
      if truthy (dict_get d (error_key cls) (VBool false))
      then raise (InvalidResponse response)
      else mret json_resp
  | _ => mret json_resp
  end.

Definition _request (method endpoint : string) (params : value)
    (data : option (gmap string value)) : M value :=
  _ ← (if enable_rate_limit cls then throttle else mret tt);
  now ← milliseconds;
  _ ← modify (set_last_request_timestamp now);
  '(url, path) ← url_path_for endpoint;
  let data := _encode_data data in
  let request := sign cls method path params data in
  timeout ← gets (fun s => C_TIMEOUT (self s));
  response ← session_request
    {| c_method := method;
       c_url := url;
       c_headers := dict_get request "headers" VNone;
       c_params := dict_get request "params" params;
       c_data := dict_get request "data" data;
       c_verify := true;
       c_timeout := timeout |};
  _ ← try_except (raise_for_status response)
        (fun e => match e with
                  | HTTPError _ => Some (raise (InvalidResponse response))
                  | _ => None
                  end);
  _decode_data response.

Definition get (endpoint : string) (params : value) : M value :=
  _request "get" endpoint params None.

Definition post (endpoint : string) (data : option (gmap string value)) : M value :=
  _request "post" endpoint VNone data.

Definition put (endpoint : string) (data : option (gmap string value)) : M value :=
  _request "put" endpoint VNone data.

Definition patch (endpoint : string) (data : option (gmap string value)) : M value :=
  _request "patch" endpoint VNone data.

Definition delete (endpoint : string) (data : option (gmap string value)) : M value :=
  _request "delete" endpoint VNone data.

(** One call's arguments, and a caller that issues calls one after the
    other, whatever each of them returns or raises, noting the request
    timestamp that each leaves behind. *)
Record request_args := {
  a_method : string;
  a_endpoint : string;
  a_params : value;
  a_data : option (gmap string value)
}.

Fixpoint request_starts (calls : list request_args) (s : state) : list Z :=
  match calls with
  | [] => []
  | a :: rest =>
      let o := _request (a_method a) (a_endpoint a) (a_params a) (a_data a) s in
      last_request_timestamp (self (final o)) :: request_starts rest (final o)
  end.

End Dispatcher.

(** [Client.nonce()]: [str(self.microseconds())]. *)
Definition nonce : M string := us ← microseconds; mret (pretty us).

(** ** class _Enum *)

(** [str.upper], [str.replace(c, '')] and slicing, on ASCII text. *)
Definition ascii_upper (c : ascii) : ascii :=
  let n := nat_of_ascii c in
  if ((97 <=? n) && (n <=? 122))%nat then ascii_of_nat (n - 32) else c.

Fixpoint upper (s : string) : string :=
  match s with
  | EmptyString => EmptyString
  | String c rest => String (ascii_upper c) (upper rest)
  end.

Fixpoint remove_char (c : ascii) (s : string) : string :=
  match s with
  | EmptyString => EmptyString
  | String c' rest =>
      if Ascii.eqb c c' then remove_char c rest else String c' (remove_char c rest)
  end.

Fixpoint str_take (n : nat) (s : string) : string :=
  match n, s with
  | S n', String c rest => String c (str_take n' rest)
  | _, _ => EmptyString
  end.

Fixpoint str_drop (n : nat) (s : string) : string :=
  match n, s with
  | S n', String _ rest => str_drop n' rest
  | _, _ => s
  end.

Section Enum.
Context {member : Type}.

(** What [check] can be handed: [None], a member of the class itself, or
    any other object, known by the text that [str] gives for it. *)
Inductive check_arg :=
  | ArgNone
  | ArgMember (m : member)
  | ArgOther (str : string).

(** An enum class: its members by name, in definition order, and the two
    methods a subclass may override.  [_missing_] answers a member or
    [None], or raises. *)
Record EnumClass := {
  __members__ : list (string * member);
  _format_value : string -> string;
  _missing_ : check_arg -> exn + option member
}.

(** [cls[name]]. *)
Fixpoint getitem (ms : list (string * member)) (name : string) : exn + member :=
  match ms with
  | [] => inl (KeyError name)
  | (n, m) :: rest => if String.eqb n name then inr m else getitem rest name
  end.

Definition check (cls : EnumClass) (value : check_arg) : exn + option member :=
  match value with
  | ArgNone => inr None
  | ArgMember m => inr (Some m)
  | ArgOther str =>
      match getitem (__members__ cls) (_format_value cls str) with
      | inr m => inr (Some m)
      | inl (KeyError _) => _missing_ cls value
      | inl e => inl e
      end
  end.

(** What [check] returns, handed to [check] again. *)
Definition as_arg (r : option member) : check_arg :=
  match r with
  | None => ArgNone
  | Some m => ArgMember m
  end.

End Enum.
Arguments check_arg : clear implicits.
Arguments EnumClass : clear implicits.

(** [_Enum._format_value] and [Enum._missing_], which [_Enum] inherits. *)
Definition Enum_format_value (str : string) : string := upper str.

Definition Enum_missing {member} (value : check_arg member) : exn + option member :=
  inr None.

(** [_Market._format_value]. *)
Definition Market_format_value (str : string) : string :=
  let value := remove_char "-" str in
  let value := str_take 3 value +:+ "_" +:+ str_drop 3 value in
  upper value.

(** ** The stages of one request *)

(** Names for what [_request] reaches on its way, so that its properties can
    say which call went out and which response came back. *)
Section Stages.
Context {platform : Platform}.
Variable cls : ClientClass.

(** What [milliseconds()] reads when called in state [s]. *)
Definition ms_reading (s : state) : Z := clock_us (elapse_state s) ÷ 1000.

(** [elapsed] as [throttle] computes it when called in state [s]. *)
Definition elapsed_at (s : state) : Z := ms_reading s - last_request_timestamp (self s).

Definition is_http_error (r : Response) : bool :=
  (400 <=? status_code r) && (status_code r <? 600).

(** The rate-limiting step that opens [_request]. *)
Definition throttled (s : state) : outcome unit :=
  (if enable_rate_limit cls then throttle cls else mret tt) s.

(** The state once [last_request_timestamp] has been recorded. *)
Definition stamped (s : state) : state :=
  set_last_request_timestamp (ms_reading (final (throttled s)))
    (elapse_state (final (throttled s))).

(** The state in which the remote end answers. *)
Definition at_send (s : state) : state := elapse_state (stamped s).

(** The call that [_request] hands to the session. *)
Definition outgoing (method endpoint : string) (params : value)
    (data : option (gmap string value)) (s : state) : Call :=
  let url := URL (SERVER (self s)) +:+ "/" +:+ endpoint in
  let body := _encode_data data in
  let request := sign cls method (urlparse_path url) params body in
  {| c_method := method;
     c_url := url;
     c_headers := dict_get request "headers" VNone;
     c_params := dict_get request "params" params;
     c_data := dict_get request "data" body;
     c_verify := true;
     c_timeout := C_TIMEOUT (self s) |}.

Definition answer (method endpoint : string) (params : value)
    (data : option (gmap string value)) (s : state) : Response :=
  transport (clock_us (at_send s)) (outgoing method endpoint params data s).

(** A decoded document that carries the class's error flag. *)
Definition error_flagged (v : value) : bool :=
  match v with
  | VDict d => truthy (dict_get d (error_key cls) (VBool false))
  | _ => false
  end.
End Stages.

Section VerbShape.
Context {platform : Platform}.
Variable cls : ClientClass.

(** What goes out for a verb that carries a body and no [params]. *)
Definition sends_body_only (verb : string) (data : option (gmap string value))
    (c : Call) : Prop :=
  let body := _encode_data data in
  let request := sign cls verb (urlparse_path (c_url c)) VNone body in
  c_method c = verb /\
  c_params c = dict_get request "params" VNone /\
  c_data c = dict_get request "data" body.

End VerbShape.

(** Timestamps, each at least [R] after the one before, starting from [prev]. *)
Fixpoint spaced_from (R prev : Z) (starts : list Z) : Prop :=
  match starts with
  | [] => True
  | t :: rest => prev + R <= t /\ spaced_from R t rest
  end.

(** Telling the events apart. *)
Definition is_sleep (e : event) : bool :=
  match e with EvSleep _ => true | _ => false end.

(** The characters of a text. *)
Fixpoint chars (s : string) : list ascii :=
  match s with
  | EmptyString => []
  | String c rest => c :: chars rest
  end.

(** A text with no [-] in it. *)
Definition dash_free (s : string) : Prop := ~ In "-"%char (chars s).

(** ** A platform to run on *)

(** A double quote, for writing JSON text. *)
Definition dq : string := String (ascii_of_nat 34) EmptyString.

Definition error_body : string := "{" +:+ dq +:+ "error" +:+ dq +:+ ": true}".

Definition result_body : string := "{" +:+ dq +:+ "result" +:+ dq +:+ ": 42}".

(** A parser that knows a handful of documents and rejects every other text. *)
Definition demo_loads (s : string) : option value :=
  if String.eqb s error_body then Some (VDict {[ "error" := VBool true ]})
  else if String.eqb s result_body then Some (VDict {[ "result" := VInt 42 ]})
  else if String.eqb s "null" then Some VNone
  else if String.eqb s "[]" then Some (VList [])
  else if String.eqb s "42" then Some (VInt 42)
  else None.

(** A writer that puts down the keys of a mapping and nothing of the values. *)
Definition demo_dumps (v : value) : string :=
  match v with
  | VDict m => "{" +:+ String.concat "," (map fst (map_to_list m)) +:+ "}"
  | _ => "null"
  end.

Fixpoint from_slash (s : string) : string :=
  match s with
  | EmptyString => EmptyString
  | String c rest => if Ascii.eqb c "/" then s else from_slash rest
  end.

(** The path of a URL of the form [scheme://host/path]. *)
Definition demo_path (url : string) : string :=
  match index 0 "://" url with
  | Some i => from_slash (str_drop (i + 3) url)
  | None => url
  end.

(** A remote end with four kinds of answers, chosen by the path. *)
Definition demo_transport (t : Z) (c : Call) : Response :=
  let path := demo_path (c_url c) in
  if String.eqb path "/v2/boom" then {| status_code := 500; text := result_body |}
  else if String.eqb path "/v2/flagged" then {| status_code := 200; text := error_body |}
  else if String.eqb path "/v2/ticker" then {| status_code := 200; text := result_body |}
  else {| status_code := 200; text := "<html>" |}.

Definition demo_platform : Platform := {|
  json_dumps := demo_dumps;
  json_loads := demo_loads;
  urlparse_path := demo_path;
  transport := demo_transport
|}.

(** A subclass that flags errors under ["error"] and signs with one header. *)
Definition Signed_class : ClientClass := {|
  error_key := "error";
  enable_rate_limit := true;
  rate_limit := 1000;
  sign := fun _ _ _ _ => {[ "headers" := VDict {[ "X-Test" := VStr "1" ]} ]}
|}.

Definition demo_server : Server := Server_init "https" "api.example.com" (Some "v2").

(** A fresh client some time in 2023, with the delays of the calls to come. *)
Definition demo_state : state := {|
  self := Client_init demo_server TIMEOUT RetryNone;
  clock_us := 1700000000000000;
  latencies := [250; 40; 120000; 300; 15; 7; 90000; 10; 2500; 20; 80000]%N
|}.

Definition demo_params : value := VDict {[ "market" := VStr "btc-clp" ]}.

Definition demo_calls : list request_args :=
  [ {| a_method := "get"; a_endpoint := "ticker"; a_params := demo_params; a_data := None |};
    {| a_method := "get"; a_endpoint := "boom"; a_params := VNone; a_data := None |};
    {| a_method := "post"; a_endpoint := "flagged"; a_params := VNone;
       a_data := Some {[ "amount" := VInt 3; "memo" := VNone ]} |} ].

(** A currency-like enum with two members. *)
Inductive currency := BTC | CLP.

Definition Currency_class : EnumClass currency := {|
  __members__ := [("BTC", BTC); ("CLP", CLP)];
  _format_value := Enum_format_value;
  _missing_ := Enum_missing
|}.

(** A subclass with rate limiting switched off. *)
Definition Unthrottled_class : ClientClass := {|
  error_key := "error";
  enable_rate_limit := false;
  rate_limit := 1000;
  sign := fun _ _ _ _ => ∅
|}.

(** A market-like enum with one member. *)
Inductive market := BTC_CLP.

Definition Market_class : EnumClass market := {|
  __members__ := [("BTC_CLP", BTC_CLP)];
  _format_value := Market_format_value;
  _missing_ := Enum_missing
|}.

(** * Properties *)

(** ** The server descriptor *)

Lemma string_app_nil_r (s : string) : s +:+ "" = s.
Proof.
  induction s as [|c s IH]; [reflexivity|].
  change (String c (s +:+ "") = String c s). by rewrite IH.
Qed.

Lemma string_app_not_self (s t : string) : t <> "" -> s <> s +:+ t.
Proof.
  intros Ht Heq. apply Ht. symmetry.
  apply (String.app_inj s). rewrite string_app_nil_r. exact Heq.
Qed.

Lemma version_truthy_Some (v : string) : v <> "" -> version_truthy (Some v) = true.
Proof. intros Hv. cbn. by destruct v. Qed.

Example Server_url_v2 :
  URL (Server_init "https" "api.example.com" (Some "v2")) = "https://api.example.com/v2".
Proof. reflexivity. Qed.

Example Server_url_no_version :
  URL (Server_init "https" "api.example.com" None) = "https://api.example.com".
Proof. reflexivity. Qed.

(** C6, as the claim has it, at the empty version string: a version is
    passed, and the URL is the bare [protocol://host], not that text
    followed by [/] and the version. *)
Lemma Server_url_empty_version_counterexample :
  URL (Server_init "https" "api.example.com" (Some "")) = "https://api.example.com" /\
  URL (Server_init "https" "api.example.com" (Some ""))
    <> ("https" +:+ "://" +:+ "api.example.com") +:+ "/" +:+ "".
Proof. split; [reflexivity | vm_compute; discriminate]. Qed.

(** C9: a falsy version (here [None] or the empty string) gives the URL that
    [version=None] gives, [protocol://host], with no [/] appended. *)
Theorem Server_falsy_version_url (protocol host : string) (version : option string) :
  version_truthy version = false ->
  URL (Server_init protocol host version) = URL (Server_init protocol host None) /\
  URL (Server_init protocol host version) = protocol +:+ "://" +:+ host /\
  URL (Server_init protocol host version) <> (protocol +:+ "://" +:+ host) +:+ "/".
Proof.
  intros Hv. unfold Server_init. rewrite Hv. cbn.
  repeat split. by apply string_app_not_self.
Qed.

Lemma Server_falsy_version_url_witness :
  URL (Server_init "https" "api.example.com" (Some ""))
    = URL (Server_init "https" "api.example.com" None) /\
  URL (Server_init "https" "api.example.com" (Some "")) = "https" +:+ "://" +:+ "api.example.com" /\
  URL (Server_init "https" "api.example.com" (Some ""))
    <> ("https" +:+ "://" +:+ "api.example.com") +:+ "/".
Proof. apply (Server_falsy_version_url "https" "api.example.com" (Some "")). reflexivity. Defined.

(** ** The retry policy *)

Lemma mounted_adapters (server : Server) (timeout : Z) (retry : retry_arg) (prefix : string) :
  prefix = "http://" \/ prefix = "https://" ->
  adapters (session (Client_init server timeout retry)) !! prefix
    = Some {| max_retries := match retry with
                             | RetryBool true => RetryPolicy RETRY
                             | _ => retry
                             end |}.
Proof.
  intros [-> | ->]; unfold Client_init, mount; cbn.
  - rewrite lookup_insert_ne by discriminate. by rewrite lookup_insert_eq.
  - by rewrite lookup_insert_eq.
Qed.

(** C8: with [retry=True] the adapters mounted for both schemes carry the
    module's [RETRY] policy: 3 attempts in total, backoff factor 2, and a
    status list that holds 400, 401, 403, 404, 408, 429, 500, 502, 503, 504. *)
Theorem retry_True_installs_RETRY (server : Server) (timeout : Z) :
  let client := Client_init server timeout (RetryBool true) in
  adapters (session client) !! "http://" = Some {| max_retries := RetryPolicy RETRY |} /\
  adapters (session client) !! "https://" = Some {| max_retries := RetryPolicy RETRY |} /\
  total RETRY = 3 /\
  backoff_factor RETRY = 2 /\
  Forall (fun code => In code (status_forcelist RETRY))
    [400; 401; 403; 404; 408; 429; 500; 502; 503; 504].
Proof.
  cbn zeta. split; [|split]; try (apply mounted_adapters; auto).
  split; [reflexivity|]. split; [reflexivity|].
  repeat (apply List.Forall_cons; [unfold RETRY, status_forcelist, In; tauto|]).
  apply List.Forall_nil.
Qed.

(** ** Running the dispatcher *)

Section MonadFacts.
Context {A B : Type}.

Lemma bind_run (m : M A) (k : A -> M B) (s : state) :
  (m ≫= k) s =
    match result (m s) with
    | inl e => {| result := inl e; final := final (m s); emitted := emitted (m s) |}
    | inr a => after (emitted (m s)) (k a (final (m s)))
    end.
Proof. reflexivity. Qed.

Lemma after_nil (o : outcome A) : after [] o = o.
Proof. by destruct o. Qed.
End MonadFacts.

Section DispatcherFacts.
Context {platform : Platform}.
Variable cls : ClientClass.

Lemma milliseconds_run (s : state) :
  milliseconds s = {| result := inr (ms_reading s); final := elapse_state s; emitted := [] |}.
Proof. reflexivity. Qed.

Lemma sleep_ms_run (ms : Z) (s : state) :
  sleep_ms ms s =
    {| result := inr tt; final := elapse_state (advance (ms * 1000) s);
       emitted := [EvSleep ms] |}.
Proof. reflexivity. Qed.

Lemma throttle_run (s : state) :
  throttle cls s =
    if elapsed_at s <? rate_limit cls then
      {| result := inr tt;
         final := elapse_state (advance ((rate_limit cls - elapsed_at s) * 1000) (elapse_state s));
         emitted := [EvSleep (rate_limit cls - elapsed_at s)] |}
    else {| result := inr tt; final := elapse_state s; emitted := [] |}.
Proof.
  unfold throttle. rewrite bind_run, milliseconds_run. cbn [result final emitted].
  rewrite bind_run. cbn [gets result final emitted]. rewrite !after_nil.
  unfold elapsed_at. change (self (elapse_state s)) with (self s).
  destruct (_ <? _); [apply sleep_ms_run | reflexivity].
Qed.

Lemma throttled_result (s : state) : result (throttled cls s) = inr tt.
Proof.
  unfold throttled. destruct (enable_rate_limit cls); [|reflexivity].
  rewrite throttle_run. by destruct (_ <? _).
Qed.

Lemma throttled_self (s : state) : self (final (throttled cls s)) = self s.
Proof.
  unfold throttled. destruct (enable_rate_limit cls); [|reflexivity].
  rewrite throttle_run. by destruct (_ <? _).
Qed.

Lemma url_path_for_run (endpoint : string) (s : state) :
  url_path_for endpoint s =
    let url := URL (SERVER (self s)) +:+ "/" +:+ endpoint in
    {| result := inr (url, urlparse_path url); final := s; emitted := [] |}.
Proof. reflexivity. Qed.

Lemma session_request_run (c : Call) (s : state) :
  session_request c s =
    let r := transport (clock_us (elapse_state s)) c in
    {| result := inr r; final := elapse_state s; emitted := [EvSend c r] |}.
Proof. reflexivity. Qed.

Lemma raise_for_status_run (r : Response) (s : state) :
  raise_for_status r s =
    {| result := if is_http_error r then inl (HTTPError r) else inr tt;
       final := s; emitted := [] |}.
Proof. unfold raise_for_status, is_http_error. by destruct (_ && _). Qed.

Lemma decode_data_run (r : Response) (s : state) :
  _decode_data cls r s =
    {| result :=
         match json_loads (text r) with
         | None => inl DecodeError
         | Some v => if error_flagged cls v then inl (InvalidResponse r) else inr v
         end;
       final := s;
       emitted := [EvJson r] |}.
Proof.
  unfold _decode_data, try_except, response_json. rewrite !bind_run.
  cbn [emit result final emitted].
  destruct (json_loads (text r)) as [v|]; cbn; [|reflexivity].
  destruct v as [| | | | | |d]; try reflexivity.
  cbn. by destruct (truthy _).
Qed.

Lemma request_run method endpoint params data s :
  _request cls method endpoint params data s =
    let c := outgoing cls method endpoint params data s in
    let r := answer cls method endpoint params data s in
    if is_http_error r then
      {| result := inl (InvalidResponse r);
         final := at_send cls s;
         emitted := emitted (throttled cls s) ++ [EvSend c r] |}
    else
      {| result := result (_decode_data cls r (at_send cls s));
         final := at_send cls s;
         emitted := emitted (throttled cls s) ++ [EvSend c r; EvJson r] |}.
Proof.
  cbn zeta. unfold _request. rewrite bind_run.
  change ((if enable_rate_limit cls then throttle cls else mret ()) s)
    with (throttled cls s).
  rewrite throttled_result.
  rewrite bind_run, milliseconds_run. cbn [result final emitted].
  rewrite bind_run. cbn [modify result final emitted].
  rewrite bind_run, url_path_for_run. cbn [result final emitted].
  rewrite bind_run. cbn [gets result final emitted].
  rewrite bind_run, session_request_run. cbn [result final emitted].
  rewrite bind_run. unfold try_except. rewrite raise_for_status_run.
  cbn [result final emitted].
  fold (stamped cls s). fold (at_send cls s).
  assert (self (stamped cls s) =
          {| SERVER := SERVER (self s); C_TIMEOUT := C_TIMEOUT (self s);
             session := session (self s);
             last_request_timestamp := ms_reading (final (throttled cls s)) |}) as ->.
  { unfold stamped. cbn. by rewrite throttled_self. }
  unfold answer, outgoing. cbn [SERVER C_TIMEOUT]. rewrite !after_nil.
  destruct (is_http_error _).
  - cbn [result final emitted raise after]. by rewrite app_nil_r.
  - cbn [result final emitted]. rewrite after_nil, decode_data_run. reflexivity.
Qed.

Lemma throttled_emitted (s : state) :
  emitted (throttled cls s) = [] \/ exists ms, emitted (throttled cls s) = [EvSleep ms].
Proof.
  unfold throttled. destruct (enable_rate_limit cls); [|by left].
  rewrite throttle_run. destruct (_ <? _); [right; by eexists | by left].
Qed.

Lemma request_final method endpoint params data s :
  final (_request cls method endpoint params data s) = at_send cls s.
Proof. rewrite request_run. cbn zeta. by destruct (is_http_error _). Qed.

(** The one exchange of a request is the call [outgoing] and its [answer]. *)
Lemma request_sent method endpoint params data s c r :
  In (EvSend c r) (emitted (_request cls method endpoint params data s)) ->
  c = outgoing cls method endpoint params data s /\
  r = answer cls method endpoint params data s.
Proof.
  rewrite request_run. cbn zeta. intros Hin.
  assert (In (EvSend c r)
            (emitted (throttled cls s) ++
             [EvSend (outgoing cls method endpoint params data s)
                     (answer cls method endpoint params data s);
              EvJson (answer cls method endpoint params data s)])) as Hin'.
  { destruct (is_http_error _); cbn [emitted] in Hin; [|exact Hin].
    apply in_app_or in Hin as [Hin | Hin]; apply in_or_app; [by left|right].
    destruct Hin as [Hin | []]. by left. }
  clear Hin. apply in_app_or in Hin' as [Hin | Hin].
  - destruct (throttled_emitted s) as [E | [ms E]]; rewrite E in Hin.
    + destruct Hin.
    + destruct Hin as [Hin | []]. discriminate.
  - destruct Hin as [Hin | [Hin | []]]; [|discriminate].
    by injection Hin as <- <-.
Qed.


(** C4: [throttle] reads the clock, takes [elapsed = now - last_request_timestamp],
    and when [elapsed < rate_limit] asks [time.sleep] for exactly
    [rate_limit - elapsed] milliseconds, after which the clock stands that
    much later (plus what the scheduler adds); otherwise it makes no call and
    the clock is where the reading left it.  The base class has
    [rate_limit = 1000]. *)
Theorem throttle_sleeps_for_the_remainder (s : state) :
  let now := ms_reading s in
  let elapsed := now - last_request_timestamp (self s) in
  let o := throttle cls s in
  result (milliseconds s) = inr now /\
  result o = inr tt /\
  emitted o =
    (if elapsed <? rate_limit cls then [EvSleep (rate_limit cls - elapsed)] else []) /\
  clock_us (final o) =
    (if elapsed <? rate_limit cls
     then clock_us (elapse_state s) + (rate_limit cls - elapsed) * 1000
          + Z.of_N (hd 0%N (tl (latencies s)))
     else clock_us (elapse_state s)) /\
  self (final o) = self s /\
  rate_limit Client_class = 1000.
Proof.
  cbn zeta. rewrite throttle_run. fold (elapsed_at s).
  destruct (elapsed_at s <? rate_limit cls); repeat split.
Qed.

(** C1: what the [sign] hook returns is laid over the defaults built from the
    call's arguments, key by key: each of [headers], [params] and [data] that
    goes out is the hook's entry where the hook gives one and the default
    otherwise.  With a hook that returns only [{headers: {X-Test: 1}}], the
    call carries that header and the caller's [params] and the encoded body
    still go out. *)
Theorem request_merges_sign_overrides method endpoint params data s c r :
  In (EvSend c r) (emitted (_request cls method endpoint params data s)) ->
  let body := _encode_data data in
  let request := sign cls method (urlparse_path (c_url c)) params body in
  let defaults : gmap string value := {[ "params" := params; "data" := body ]} in
  c_headers c = dict_get (request ∪ defaults) "headers" VNone /\
  c_params c = dict_get (request ∪ defaults) "params" VNone /\
  c_data c = dict_get (request ∪ defaults) "data" VNone /\
  (forall key v, request !! key = Some v -> (request ∪ defaults) !! key = Some v) /\
  (forall key, request !! key = None -> (request ∪ defaults) !! key = defaults !! key) /\
  (request = {[ "headers" := VDict {[ "X-Test" := VStr "1" ]} ]} ->
   c_headers c = VDict {[ "X-Test" := VStr "1" ]} /\
   c_params c = params /\
   c_data c = body).
Proof.
  intros Hin. apply request_sent in Hin as [-> _]. cbn zeta.
  unfold outgoing. cbn [c_headers c_params c_data c_url].
  set (request := sign cls _ _ _ _).
  assert (forall key,
            dict_get (request ∪ {[ "params" := params; "data" := _encode_data data ]})
              key VNone
            = dict_get request key
                (default VNone
                   (({[ "params" := params; "data" := _encode_data data ]}
                      : gmap string value) !! key))) as Hget.
  { intros key. unfold dict_get. rewrite lookup_union.
    by destruct (request !! key); destruct (_ !! key). }
  split; [|split; [|split; [|split; [|split]]]].
  - by rewrite Hget.
  - rewrite Hget. by rewrite lookup_insert_eq.
  - rewrite Hget.
    rewrite lookup_insert_ne by discriminate. by rewrite lookup_singleton_eq.
  - intros key v Hk. by apply lookup_union_Some_l.
  - intros key Hk. by apply lookup_union_r.
  - intros ->. unfold dict_get. rewrite lookup_singleton_eq.
    by rewrite !lookup_singleton_ne by discriminate.
Qed.

(** C2: when the response of the exchange has a 4xx or 5xx status, the
    request raises [InvalidResponse] with that response, whatever its body,
    and [response.json()] is never called. *)
Theorem http_error_raises_InvalidResponse method endpoint params data s c r :
  In (EvSend c r) (emitted (_request cls method endpoint params data s)) ->
  400 <= status_code r < 600 ->
  result (_request cls method endpoint params data s) = inl (InvalidResponse r) /\
  forall r', ~ In (EvJson r') (emitted (_request cls method endpoint params data s)).
Proof.
  intros Hin Hstatus. apply request_sent in Hin as [_ ->].
  rewrite request_run. cbn zeta.
  assert (is_http_error (answer cls method endpoint params data s) = true) as ->.
  { unfold is_http_error. apply andb_true_intro. split; lia. }
  cbn [result emitted]. split; [reflexivity|].
  intros r' Hin. apply in_app_or in Hin as [Hin | Hin].
  - destruct (throttled_emitted s) as [E | [ms E]]; rewrite E in Hin.
    + destruct Hin.
    + destruct Hin as [Hin | []]. discriminate.
  - destruct Hin as [Hin | []]. discriminate.
Qed.

(** A response with any other status is handed to [_decode_data]. *)
Lemma http_success_is_decoded method endpoint params data s c r :
  In (EvSend c r) (emitted (_request cls method endpoint params data s)) ->
  ~ (400 <= status_code r < 600) ->
  result (_request cls method endpoint params data s)
    = result (_decode_data cls r (at_send cls s)).
Proof.
  intros Hin Hstatus. apply request_sent in Hin as [_ ->].
  rewrite request_run. cbn zeta.
  assert (is_http_error (answer cls method endpoint params data s) = false) as ->;
    [|reflexivity].
  unfold is_http_error. apply andb_false_iff. lia.
Qed.

(** C3: [_decode_data] raises [DecodeError] exactly when the body does not
    parse; a parsed mapping with a truthy value under [error_key] raises
    [InvalidResponse] with the response; any other parsed value is returned
    as it is. *)
Theorem decode_data_outcomes (response : Response) (s : state) :
  let o := _decode_data cls response s in
  (result o = inl DecodeError <-> json_loads (text response) = None) /\
  (forall d x,
     json_loads (text response) = Some (VDict d) ->
     d !! error_key cls = Some x -> truthy x = true ->
     result o = inl (InvalidResponse response)) /\
  (forall v,
     json_loads (text response) = Some v ->
     (forall d x, v = VDict d -> d !! error_key cls = Some x -> truthy x = false) ->
     result o = inr v) /\
  final o = s.
Proof.
  cbn zeta. rewrite decode_data_run. cbn [result final].
  split; [|split; [|split]]; [| | |reflexivity].
  - destruct (json_loads (text response)) as [v|]; [|done].
    split; [|done]. by destruct (error_flagged cls v).
  - intros d x -> Hx Ht. cbn. unfold dict_get. by rewrite Hx; cbn; rewrite Ht.
  - intros v -> Hv. destruct v as [| | | | | |d]; try reflexivity.
    cbn. unfold dict_get. destruct (d !! error_key cls) as [x|] eqn:Hx; cbn.
    + by rewrite (Hv d x eq_refl Hx).
    + reflexivity.
Qed.

Lemma elapse_clock_le (s : state) : clock_us s <= clock_us (elapse_state s).
Proof. cbn. lia. Qed.

Lemma elapse_self (s : state) : self (elapse_state s) = self s.
Proof. reflexivity. Qed.

Lemma quot_ms_mono (a b : Z) : a <= b -> a ÷ 1000 <= b ÷ 1000.
Proof. intros. apply Z.quot_le_mono; lia. Qed.

Lemma quot_ms_shift (a k x : Z) :
  0 <= a -> 0 <= k -> 0 <= x -> a ÷ 1000 + k <= (a + k * 1000 + x) ÷ 1000.
Proof.
  intros. rewrite !Z.quot_div_nonneg by lia.
  rewrite <- (Z.div_add a k 1000) by lia. apply Z.div_le_mono; lia.
Qed.

(** One request moves the recorded timestamp on by at least [rate_limit]. *)
Lemma request_stamp_step method endpoint params data s :
  enable_rate_limit cls = true ->
  0 <= clock_us s ->
  last_request_timestamp (self s) + rate_limit cls
    <= last_request_timestamp (self (final (_request cls method endpoint params data s))) /\
  0 <= clock_us (final (_request cls method endpoint params data s)).
Proof.
  intros Hon Hclock. rewrite request_final.
  unfold at_send, stamped, throttled. rewrite Hon, throttle_run.
  pose proof (elapse_clock_le s) as H1.
  destruct (elapsed_at s <? rate_limit cls) eqn:Hlt; cbn [final].
  - apply Z.ltb_lt in Hlt. unfold elapsed_at, ms_reading in *.
    set (s1 := elapse_state s) in *.
    set (k := rate_limit cls - (clock_us s1 ÷ 1000 - last_request_timestamp (self s))) in *.
    set (s2 := elapse_state (advance (k * 1000) s1)).
    pose proof (elapse_clock_le (advance (k * 1000) s1)) as H2.
    pose proof (elapse_clock_le s2) as H3.
    pose proof (elapse_clock_le (set_last_request_timestamp (clock_us (elapse_state s2) ÷ 1000)
                                   (elapse_state s2))) as H4.
    fold s2 in H2. cbn [advance clock_us] in H2.
    cbn [set_last_request_timestamp clock_us] in H4.
    rewrite elapse_self.
    cbn [set_last_request_timestamp self last_request_timestamp].
    split; [|lia].
    pose proof (quot_ms_shift (clock_us s1) k
                  (clock_us (elapse_state s2) - (clock_us s1 + k * 1000))) as Hq.
    replace (clock_us s1 + k * 1000 +
             (clock_us (elapse_state s2) - (clock_us s1 + k * 1000)))
      with (clock_us (elapse_state s2)) in Hq by lia.
    unfold k in *. lia.
  - apply Z.ltb_ge in Hlt. unfold elapsed_at, ms_reading in *.
    set (s1 := elapse_state s) in *.
    pose proof (elapse_clock_le s1) as H2.
    pose proof (elapse_clock_le (set_last_request_timestamp (clock_us (elapse_state s1) ÷ 1000)
                                   (elapse_state s1))) as H4.
    cbn [set_last_request_timestamp clock_us] in H4.
    rewrite elapse_self.
    cbn [set_last_request_timestamp self last_request_timestamp].
    split; [|lia].
    pose proof (quot_ms_mono _ _ H2). lia.
Qed.

Lemma request_starts_spaced (calls : list request_args) (s : state) :
  enable_rate_limit cls = true ->
  0 <= clock_us s ->
  spaced_from (rate_limit cls) (last_request_timestamp (self s)) (request_starts cls calls s).
Proof.
  intros Hon. revert s. induction calls as [|a rest IH]; intros s Hclock; cbn; [exact I|].
  destruct (request_stamp_step (a_method a) (a_endpoint a) (a_params a) (a_data a) s Hon Hclock)
    as [Hstep Hclock'].
  split; [exact Hstep | by apply IH].
Qed.

Lemma spaced_from_lookup (R prev : Z) (starts : list Z) (i : nat) (t t' : Z) :
  spaced_from R prev starts ->
  starts !! i = Some t -> starts !! S i = Some t' -> t + R <= t'.
Proof.
  revert prev i. induction starts as [|x rest IH]; intros prev i Hsp Hi HSi; [done|].
  destruct Hsp as [_ Hrest]. destruct i as [|i].
  - injection Hi as ->. destruct rest as [|y rest']; [done|].
    injection HSi as ->. by destruct Hrest.
  - by apply (IH x i).
Qed.

(** C5: with rate limiting on, the request timestamps that calls made one
    after the other leave behind, each recorded after the throttle and before
    the exchange, lie at least [rate_limit] milliseconds apart. *)
Theorem sequential_requests_spaced (calls : list request_args) (s : state)
    (i : nat) (t t' : Z) :
  enable_rate_limit cls = true ->
  0 <= clock_us s ->
  request_starts cls calls s !! i = Some t ->
  request_starts cls calls s !! S i = Some t' ->
  t + rate_limit cls <= t'.
Proof.
  intros Hon Hclock. apply spaced_from_lookup with (prev := last_request_timestamp (self s)).
  by apply request_starts_spaced.
Qed.

Lemma throttled_clock_nonneg (s : state) :
  0 <= clock_us s -> 0 <= clock_us (final (throttled cls s)).
Proof.
  intros Hclock. unfold throttled. destruct (enable_rate_limit cls); [|exact Hclock].
  rewrite throttle_run. pose proof (elapse_clock_le s).
  destruct (elapsed_at s <? rate_limit cls) eqn:Hlt; cbn [final]; [|lia].
  apply Z.ltb_lt in Hlt.
  pose proof (elapse_clock_le (advance ((rate_limit cls - elapsed_at s) * 1000) (elapse_state s))) as H3.
  cbn [advance clock_us] in H3. lia.
Qed.

(** The timestamp is taken before the call reaches the remote end. *)
Lemma request_stamp_before_send method endpoint params data s :
  0 <= clock_us s ->
  last_request_timestamp (self (final (_request cls method endpoint params data s))) * 1000
    <= clock_us (at_send cls s).
Proof.
  intros Hclock. rewrite request_final. unfold at_send. rewrite elapse_self.
  pose proof (throttled_clock_nonneg s Hclock) as H0.
  set (s1 := final (throttled cls s)) in *.
  pose proof (elapse_clock_le s1) as H1.
  pose proof (elapse_clock_le (elapse_state s1)) as H2.
  unfold stamped. fold s1.
  change (clock_us (elapse_state (set_last_request_timestamp (ms_reading s1) (elapse_state s1))))
    with (clock_us (elapse_state (elapse_state s1))).
  cbn [set_last_request_timestamp self last_request_timestamp]. unfold ms_reading.
  rewrite Z.quot_div_nonneg by lia.
  pose proof (Z.mul_div_le (clock_us (elapse_state s1)) 1000 ltac:(lia)). lia.
Qed.

(** ** The body *)

Lemma or_empty_default (data : option (gmap string value)) :
  or_empty data = default ∅ data.
Proof. destruct data as [d|]; cbn; [|reflexivity]. by case_bool_decide. Qed.

Lemma clean_parameters_lookup (parameters : gmap string value) (k : string) (v : value) :
  clean_parameters parameters !! k = Some v <-> parameters !! k = Some v /\ v <> VNone.
Proof. unfold clean_parameters. by rewrite map_lookup_filter_Some. Qed.

Lemma clean_parameters_nonempty (parameters : gmap string value) :
  clean_parameters parameters <> ∅ <->
  exists k v, parameters !! k = Some v /\ v <> VNone.
Proof.
  split.
  - intros Hne. apply map_choose in Hne as (k & v & Hkv).
    exists k, v. by apply clean_parameters_lookup.
  - intros (k & v & Hkv) Hempty. apply clean_parameters_lookup in Hkv.
    rewrite Hempty in Hkv. by rewrite lookup_empty in Hkv.
Qed.

(** C7: [_encode_data] gives JSON text exactly when the body mapping still
    has an entry once those with value [None] are removed, and the text is
    the serialization of what is left; otherwise it gives the empty mapping,
    which is no text and is falsy. *)
Theorem encode_data_json_iff_nonempty (data : option (gmap string value)) :
  let entries := default ∅ data in
  let kept := clean_parameters entries in
  _encode_data data
    = (if bool_decide (kept = ∅) then VDict ∅ else VStr (json_dumps (VDict kept))) /\
  ((exists text, _encode_data data = VStr text) <->
   exists k v, entries !! k = Some v /\ v <> VNone) /\
  (forall k v, kept !! k = Some v <-> entries !! k = Some v /\ v <> VNone) /\
  ((forall text, _encode_data data <> VStr text) ->
   _encode_data data = VDict ∅ /\ truthy (_encode_data data) = false).
Proof.
  cbn zeta. unfold _encode_data. rewrite or_empty_default.
  set (kept := clean_parameters (default ∅ data)).
  assert (truthy (VDict kept) = negb (bool_decide (kept = ∅))) as -> by reflexivity.
  split; [|split; [|split]].
  - case_bool_decide as Hk; cbn; [by rewrite Hk | reflexivity].
  - rewrite <- clean_parameters_nonempty. fold kept.
    case_bool_decide as Hk; cbn.
    + split; [intros [text Ht]; discriminate | done].
    + split; [done | by eexists].
  - intros k v. apply clean_parameters_lookup.
  - case_bool_decide as Hk; cbn.
    + intros _. rewrite Hk. split; [reflexivity|]. cbn. by rewrite bool_decide_eq_true_2.
    + intros Hno. by destruct (Hno (json_dumps (VDict kept))).
Qed.

(** ** The server descriptor, continued *)

(** C6, amended: without a version the URL is [protocol://host]; with a
    version that is not the empty string it is [protocol://host/version];
    the descriptor keeps the arguments it was built from, and a request
    leaves the client's descriptor as it was. *)
Theorem Server_url_format (protocol host v : string) method endpoint params data s :
  v <> "" ->
  URL (Server_init protocol host None) = protocol +:+ "://" +:+ host /\
  URL (Server_init protocol host (Some v)) = (protocol +:+ "://" +:+ host) +:+ "/" +:+ v /\
  URL (Server_init "https" "api.example.com" (Some "v2")) = "https://api.example.com/v2" /\
  URL (Server_init "https" "api.example.com" None) = "https://api.example.com" /\
  (forall version,
     PROTOCOL (Server_init protocol host version) = protocol /\
     HOST (Server_init protocol host version) = host /\
     VERSION (Server_init protocol host version) = version) /\
  SERVER (self (final (_request cls method endpoint params data s))) = SERVER (self s).
Proof.
  intros Hv. split; [reflexivity|]. split.
  { unfold Server_init. by rewrite (version_truthy_Some v Hv). }
  split; [reflexivity|]. split; [reflexivity|]. split; [by intros version|].
  rewrite request_final. unfold at_send. rewrite elapse_self.
  unfold stamped. cbn [set_last_request_timestamp self SERVER].
  by rewrite elapse_self, throttled_self.
Qed.

End DispatcherFacts.

(** ** The enum lookup *)

(** C10: [check(None)] is [None], [check] of a member of the class is that
    member, and so whatever [check] returns, [check] returns it again when
    handed it. *)
Theorem check_idempotent {member : Type} (cls : EnumClass member)
    (value : check_arg member) (r : option member) :
  check cls value = inr r ->
  check cls ArgNone = inr None /\
  (forall m, check cls (ArgMember m) = inr (Some m)) /\
  check cls (as_arg r) = inr r /\
  check cls (as_arg r) = check cls value.
Proof.
  intros Hr. split; [reflexivity|]. split; [reflexivity|].
  rewrite Hr. by destruct r.
Qed.

(** ** Concrete runs *)

Section Runs.
#[local] Existing Instance demo_platform.

Example run_status_500 :
  result (get Signed_class "boom" VNone demo_state)
    = inl (InvalidResponse {| status_code := 500; text := result_body |}).
Proof. vm_compute. reflexivity. Qed.

Example run_error_flag :
  result (get Signed_class "flagged" VNone demo_state)
    = inl (InvalidResponse {| status_code := 200; text := error_body |}).
Proof. vm_compute. reflexivity. Qed.

Example run_not_json :
  result (get Signed_class "index.html" VNone demo_state) = inl DecodeError.
Proof. vm_compute. reflexivity. Qed.

Example run_result_42 :
  result (get Signed_class "ticker" VNone demo_state)
    = inr (VDict {[ "result" := VInt 42 ]}).
Proof. vm_compute. reflexivity. Qed.

Example run_request_starts :
  request_starts Signed_class demo_calls demo_state
    = [1700000000000; 1700000001000; 1700000002003].
Proof. vm_compute. reflexivity. Qed.

Example run_throttle_after_request :
  emitted (throttle Signed_class
             (final (get Signed_class "ticker" VNone demo_state)))
    = [EvSleep 880].
Proof. vm_compute. reflexivity. Qed.

Example run_encode_drops_None :
  _encode_data (Some {[ "amount" := VInt 3; "memo" := VNone ]}) = VStr "{amount}" /\
  _encode_data (Some {[ "memo" := VNone ]}) = VDict ∅ /\
  _encode_data None = VDict ∅.
Proof. vm_compute. repeat split. Qed.

(** A hook that names [params] replaces the caller's mapping as a whole. *)
Example run_sign_params_replace :
  let cls := {| error_key := ""; enable_rate_limit := false; rate_limit := 1000;
                sign := fun _ _ _ _ => {[ "params" := VDict {[ "nonce" := VInt 7 ]} ]} |} in
  c_params (outgoing cls "get" "ticker" demo_params None demo_state)
    = VDict {[ "nonce" := VInt 7 ]}.
Proof. vm_compute. reflexivity. Qed.

Example run_check :
  check Currency_class (ArgOther "btc") = inr (Some BTC) /\
  check Currency_class (ArgOther "usd") = inr None /\
  Market_format_value "btc-clp" = "BTC_CLP".
Proof. vm_compute. repeat split. Qed.

Lemma request_merges_sign_overrides_witness :
  let c := outgoing Signed_class "get" "ticker" demo_params None demo_state in
  let r := answer Signed_class "get" "ticker" demo_params None demo_state in
  In (EvSend c r) (emitted (_request Signed_class "get" "ticker" demo_params None demo_state)) /\
  c_headers c = VDict {[ "X-Test" := VStr "1" ]} /\
  c_params c = demo_params /\
  c_data c = VDict ∅.
Proof.
  cbn zeta.
  assert (In (EvSend (outgoing Signed_class "get" "ticker" demo_params None demo_state)
                     (answer Signed_class "get" "ticker" demo_params None demo_state))
             (emitted (_request Signed_class "get" "ticker" demo_params None demo_state)))
    as Hin by (vm_compute; left; reflexivity).
  split; [exact Hin|].
  destruct (request_merges_sign_overrides Signed_class "get" "ticker" demo_params None
              demo_state _ _ Hin) as (_ & _ & _ & _ & _ & Hx).
  apply Hx. reflexivity.
Defined.

Lemma http_error_raises_InvalidResponse_witness :
  let c := outgoing Signed_class "get" "boom" VNone None demo_state in
  let r := {| status_code := 500; text := result_body |} in
  In (EvSend c r) (emitted (_request Signed_class "get" "boom" VNone None demo_state)) /\
  400 <= status_code r < 600 /\
  result (_request Signed_class "get" "boom" VNone None demo_state) = inl (InvalidResponse r) /\
  forall r', ~ In (EvJson r') (emitted (_request Signed_class "get" "boom" VNone None demo_state)).
Proof.
  cbn zeta.
  assert (In (EvSend (outgoing Signed_class "get" "boom" VNone None demo_state)
                     {| status_code := 500; text := result_body |})
             (emitted (_request Signed_class "get" "boom" VNone None demo_state)))
    as Hin by (vm_compute; left; reflexivity).
  assert (400 <= status_code {| status_code := 500; text := result_body |} < 600)
    as Hstatus by (cbn; lia).
  split; [exact Hin|]. split; [exact Hstatus|].
  exact (http_error_raises_InvalidResponse Signed_class "get" "boom" VNone None
           demo_state _ _ Hin Hstatus).
Defined.

Lemma decode_data_outcomes_witness :
  let response := {| status_code := 200; text := error_body |} in
  result (_decode_data Signed_class response demo_state) = inl (InvalidResponse response).
Proof.
  cbn zeta.
  destruct (decode_data_outcomes Signed_class {| status_code := 200; text := error_body |}
              demo_state) as (_ & Hflag & _).
  apply (Hflag {[ "error" := VBool true ]} (VBool true)); reflexivity.
Defined.

Lemma sequential_requests_spaced_witness :
  enable_rate_limit Signed_class = true /\
  0 <= clock_us demo_state /\
  request_starts Signed_class demo_calls demo_state !! 1%nat = Some 1700000001000 /\
  request_starts Signed_class demo_calls demo_state !! 2%nat = Some 1700000002003 /\
  1700000001000 + rate_limit Signed_class <= 1700000002003.
Proof.
  assert (enable_rate_limit Signed_class = true) as Hon by reflexivity.
  assert (0 <= clock_us demo_state) as Hclock by (cbn; lia).
  assert (request_starts Signed_class demo_calls demo_state !! 1%nat = Some 1700000001000)
    as H1 by (vm_compute; reflexivity).
  assert (request_starts Signed_class demo_calls demo_state !! 2%nat = Some 1700000002003)
    as H2 by (vm_compute; reflexivity).
  repeat (split; [assumption|]).
  exact (sequential_requests_spaced Signed_class demo_calls demo_state 1 _ _ Hon Hclock H1 H2).
Defined.

Lemma encode_data_json_iff_nonempty_witness :
  exists text, _encode_data (Some {[ "amount" := VInt 3; "memo" := VNone ]}) = VStr text.
Proof.
  destruct (encode_data_json_iff_nonempty (Some {[ "amount" := VInt 3; "memo" := VNone ]}))
    as (_ & Hiff & _).
  apply Hiff. exists "amount", (VInt 3). split; [reflexivity | discriminate].
Defined.

Lemma Server_url_format_witness :
  "v2" <> "" /\
  URL (Server_init "https" "api.example.com" (Some "v2"))
    = ("https" +:+ "://" +:+ "api.example.com") +:+ "/" +:+ "v2" /\
  SERVER (self (final (_request Signed_class "get" "ticker" demo_params None demo_state)))
    = SERVER (self demo_state).
Proof.
  assert ("v2" <> "") as Hv by discriminate.
  split; [exact Hv|].
  destruct (Server_url_format Signed_class "https" "api.example.com" "v2"
              "get" "ticker" demo_params None demo_state Hv)
    as (_ & Hurl & _ & _ & _ & Hsame).
  split; [exact Hurl | exact Hsame].
Defined.

End Runs.

Lemma check_idempotent_witness :
  check Currency_class (ArgOther "btc") = inr (Some BTC) /\
  check Currency_class (as_arg (Some BTC)) = inr (Some BTC).
Proof.
  assert (check Currency_class (ArgOther "btc") = inr (Some BTC)) as Hr by reflexivity.
  split; [exact Hr|].
  destruct (check_idempotent Currency_class (ArgOther "btc") (Some BTC) Hr)
    as (_ & _ & Hagain & _).
  exact Hagain.
Defined.

(** * Further properties *)

(** ** The dispatcher *)

Section MoreDispatcherFacts.
Context {platform : Platform}.
Variable cls : ClientClass.

(** X1: whatever the [sign] hook returns, the call goes out with the method
    that was asked for, to [SERVER.URL/endpoint], with certificate
    verification on and with the client's timeout. *)
Theorem request_call_fixed_fields method endpoint params data s c r :
  In (EvSend c r) (emitted (_request cls method endpoint params data s)) ->
  c_method c = method /\
  c_url c = URL (SERVER (self s)) +:+ "/" +:+ endpoint /\
  c_verify c = true /\
  c_timeout c = C_TIMEOUT (self s).
Proof. intros Hin. apply request_sent in Hin as [-> _]. by repeat split. Qed.


(** X6: a request writes [last_request_timestamp] and nothing else of the
    client: server, timeout and session are as before. *)
Theorem request_only_writes_timestamp method endpoint params data s :
  let self' := self (final (_request cls method endpoint params data s)) in
  SERVER self' = SERVER (self s) /\
  C_TIMEOUT self' = C_TIMEOUT (self s) /\
  session self' = session (self s).
Proof.
  cbn zeta. rewrite request_final. unfold at_send. rewrite elapse_self.
  unfold stamped. cbn [set_last_request_timestamp self SERVER C_TIMEOUT session].
  by rewrite elapse_self, throttled_self.
Qed.

(** X8: with [enable_rate_limit] off a request never sleeps, and it still
    records its timestamp, the first clock reading it takes. *)
Theorem request_without_rate_limit method endpoint params data s now :
  enable_rate_limit cls = false ->
  result (milliseconds s) = inr now ->
  (forall ms, ~ In (EvSleep ms) (emitted (_request cls method endpoint params data s))) /\
  last_request_timestamp (self (final (_request cls method endpoint params data s))) = now.
Proof.
  intros Hoff Hnow. rewrite milliseconds_run in Hnow. cbn [result] in Hnow.
  injection Hnow as <-. split.
  - intros ms Hin. rewrite request_run in Hin. cbn zeta in Hin.
    assert (emitted (throttled cls s) = []) as E by (unfold throttled; by rewrite Hoff).
    destruct (is_http_error _); cbn [emitted] in Hin; rewrite E in Hin; cbn in Hin;
      intuition discriminate.
  - rewrite request_final. unfold at_send. rewrite elapse_self.
    unfold stamped, throttled. rewrite Hoff. reflexivity.
Qed.

(** X9: [throttle] only ever asks [time.sleep] for a positive time, and for
    no more than [rate_limit] when the clock has not fallen behind the last
    timestamp. *)
Theorem throttle_sleep_bounds (s : state) (now ms : Z) :
  result (milliseconds s) = inr now ->
  In (EvSleep ms) (emitted (throttle cls s)) ->
  0 < ms /\ (last_request_timestamp (self s) <= now -> ms <= rate_limit cls).
Proof.
  intros Hnow Hin. rewrite milliseconds_run in Hnow. cbn [result] in Hnow.
  injection Hnow as <-. rewrite throttle_run in Hin. unfold elapsed_at in Hin.
  destruct (_ <? _) eqn:Hlt; cbn [emitted] in Hin; [|destruct Hin].
  apply Z.ltb_lt in Hlt. destruct Hin as [Hin | []]. injection Hin as <-. lia.
Qed.

(** X11: once [throttle] has returned, a clock reading lies at least
    [rate_limit] after the last request timestamp. *)
Theorem throttle_postcondition (s : state) (now : Z) :
  0 <= clock_us s ->
  result (milliseconds (final (throttle cls s))) = inr now ->
  last_request_timestamp (self s) + rate_limit cls <= now.
Proof.
  intros Hclock Hnow.
  assert (now = ms_reading (final (throttle cls s))) as ->.
  { rewrite milliseconds_run in Hnow. by injection Hnow. }
  clear Hnow. rewrite throttle_run.
  pose proof (elapse_clock_le s) as H1.
  destruct (elapsed_at s <? rate_limit cls) eqn:Hlt; cbn [final];
    unfold elapsed_at, ms_reading in *.
  - apply Z.ltb_lt in Hlt.
    set (s1 := elapse_state s) in *.
    set (k := rate_limit cls - (clock_us s1 ÷ 1000 - last_request_timestamp (self s))) in *.
    set (s2 := elapse_state (advance (k * 1000) s1)).
    pose proof (elapse_clock_le (advance (k * 1000) s1)) as H2.
    pose proof (elapse_clock_le s2) as H3.
    fold s2 in H2. cbn [advance clock_us] in H2.
    pose proof (quot_ms_shift (clock_us s1) k
                  (clock_us (elapse_state s2) - (clock_us s1 + k * 1000))) as Hq.
    replace (clock_us s1 + k * 1000 +
             (clock_us (elapse_state s2) - (clock_us s1 + k * 1000)))
      with (clock_us (elapse_state s2)) in Hq by lia.
    unfold k in *. lia.
  - apply Z.ltb_ge in Hlt.
    pose proof (elapse_clock_le (elapse_state s)) as H2.
    pose proof (quot_ms_mono _ _ H2). lia.
Qed.

(** X12: the timestamp a request records is taken before the remote end
    sees the call. *)
Theorem request_stamp_precedes_exchange method endpoint params data s c r :
  0 <= clock_us s ->
  In (EvSend c r) (emitted (_request cls method endpoint params data s)) ->
  exists t,
    r = transport t c /\
    last_request_timestamp (self (final (_request cls method endpoint params data s))) * 1000 <= t.
Proof.
  intros Hclock Hin. apply request_sent in Hin as [-> ->].
  exists (clock_us (at_send cls s)). split; [reflexivity|].
  by apply request_stamp_before_send.
Qed.


(** X16: a response with any status outside 400..599, a redirect or a
    status above 599 as well, is decoded: a body that does not parse raises
    [DecodeError], a mapping with a truthy error flag raises
    [InvalidResponse], and any other document is returned. *)
Theorem non_error_status_is_decoded method endpoint params data s c r :
  In (EvSend c r) (emitted (_request cls method endpoint params data s)) ->
  ~ (400 <= status_code r < 600) ->
  result (_request cls method endpoint params data s)
    = match json_loads (text r) with
      | None => inl DecodeError
      | Some (VDict d) =>
          if truthy (dict_get d (error_key cls) (VBool false))
          then inl (InvalidResponse r) else inr (VDict d)
      | Some v => inr v
      end.
Proof.
  intros Hin Hstatus.
  rewrite (http_success_is_decoded cls method endpoint params data s c r Hin Hstatus).
  rewrite decode_data_run. cbn [result].
  destruct (json_loads (text r)) as [v|]; [|reflexivity]. by destruct v.
Qed.

End MoreDispatcherFacts.

Section VerbFacts.
Context {platform : Platform}.
Variable cls : ClientClass.

Lemma encode_data_None : _encode_data None = VDict ∅.
Proof. unfold _encode_data, or_empty, clean_parameters. by rewrite map_filter_empty. Qed.

(** X2: with the base class, whose [sign] returns [{}], a request goes out
    unsigned: no headers, the caller's [params], the encoded body. *)
Theorem base_class_sends_unsigned method endpoint params data s c r :
  In (EvSend c r) (emitted (_request Client_class method endpoint params data s)) ->
  c_headers c = VNone /\ c_params c = params /\ c_data c = _encode_data data.
Proof. intros Hin. apply request_sent in Hin as [-> _]. by repeat split. Qed.

(** X3: [get] asks for method [get] and encodes no body: the hook is shown
    the caller's [params] and the empty mapping, and these go out unless the
    hook names others. *)
Theorem get_signs_empty_body endpoint params s c r :
  In (EvSend c r) (emitted (get cls endpoint params s)) ->
  let request := sign cls "get" (urlparse_path (c_url c)) params (VDict ∅) in
  c_method c = "get" /\
  c_headers c = dict_get request "headers" VNone /\
  c_params c = dict_get request "params" params /\
  c_data c = dict_get request "data" (VDict ∅).
Proof.
  unfold get. intros Hin. apply request_sent in Hin as [-> _].
  cbn zeta. unfold outgoing. cbn [c_method c_url c_headers c_params c_data].
  rewrite encode_data_None. by repeat split.
Qed.

Lemma request_sends_body_only verb endpoint data s c r :
  In (EvSend c r) (emitted (_request cls verb endpoint VNone data s)) ->
  sends_body_only cls verb data c.
Proof. intros Hin. apply request_sent in Hin as [-> _]. by repeat split. Qed.

(** X4: [post], [put], [patch] and [delete] ask for their own method and
    pass no [params]: the hook is shown [None] and the encoded body, and
    unless it names [params] none go out. *)
Theorem body_verbs_send_no_params endpoint data s c r :
  (In (EvSend c r) (emitted (post cls endpoint data s)) -> sends_body_only cls "post" data c) /\
  (In (EvSend c r) (emitted (put cls endpoint data s)) -> sends_body_only cls "put" data c) /\
  (In (EvSend c r) (emitted (patch cls endpoint data s)) -> sends_body_only cls "patch" data c) /\
  (In (EvSend c r) (emitted (delete cls endpoint data s)) -> sends_body_only cls "delete" data c).
Proof. split; [|split; [|split]]; apply request_sends_body_only. Qed.

(** X10: the first request of a new client is not delayed, as soon as the
    clock is [rate_limit] milliseconds past the epoch: its timestamp starts
    at 0. *)
Theorem fresh_client_first_request_not_delayed server timeout retry us lat
    method endpoint params data :
  rate_limit cls * 1000 <= us ->
  let s := {| self := Client_init server timeout retry; clock_us := us; latencies := lat |} in
  forall ms, ~ In (EvSleep ms) (emitted (_request cls method endpoint params data s)).
Proof.
  intros Hus s ms Hin. rewrite request_run in Hin. cbn zeta in Hin.
  assert (emitted (throttled cls s) = []) as E.
  { unfold throttled. destruct (enable_rate_limit cls); [|reflexivity].
    rewrite throttle_run.
    assert ((elapsed_at s <? rate_limit cls) = false) as ->; [|reflexivity].
    apply Z.ltb_ge. unfold elapsed_at, ms_reading.
    pose proof (elapse_clock_le s) as H1.
    pose proof (quot_ms_mono _ _ H1) as H2.
    pose proof (quot_ms_mono _ _ Hus) as H3.
    rewrite Z.quot_mul in H3 by lia.
    change (clock_us s) with us in H2. cbn [s self Client_init last_request_timestamp]. lia. }
  destruct (is_http_error _); cbn [emitted] in Hin; rewrite E in Hin; cbn in Hin;
    intuition discriminate.
Qed.

(** X14: the URL of a request is the server's URL, a slash and the endpoint
    as given: [protocol://host/version/endpoint] for a version that counts,
    [protocol://host/endpoint] otherwise. *)
Theorem request_url_from_server protocol host version method endpoint params data s c r :
  SERVER (self s) = Server_init protocol host version ->
  In (EvSend c r) (emitted (_request cls method endpoint params data s)) ->
  c_url c =
    (if version_truthy version
     then (protocol +:+ "://" +:+ host) +:+ "/" +:+ version_str version
     else protocol +:+ "://" +:+ host) +:+ "/" +:+ endpoint.
Proof.
  intros Hserver Hin. apply request_sent in Hin as [-> _].
  unfold outgoing. cbn [c_url]. rewrite Hserver. reflexivity.
Qed.

End VerbFacts.

(** X7: the client that a request leaves behind does not depend on the
    answer: with another remote end or another parser, and so also when the
    request fails, the same timestamp is recorded. *)
Theorem request_client_independent_of_answer (p1 p2 : Platform) (cls : ClientClass)
    method endpoint params data s :
  self (final (@_request p1 cls method endpoint params data s))
    = self (final (@_request p2 cls method endpoint params data s)).
Proof. by rewrite !request_final. Qed.

(** X13: [Client.__init__] hands any [retry] other than [True] to the
    adapter as it is, mounts that one adapter for [http://] and [https://]
    and for nothing else, and starts the timestamp at 0. *)
Theorem Client_init_adapters (server : Server) (timeout : Z) (retry : retry_arg) :
  retry <> RetryBool true ->
  let client := Client_init server timeout retry in
  adapters (session client)
    = {[ "http://" := {| max_retries := retry |};
         "https://" := {| max_retries := retry |} ]} /\
  SERVER client = server /\
  C_TIMEOUT client = timeout /\
  last_request_timestamp client = 0.
Proof.
  intros Hretry. cbn zeta. split; [|by repeat split].
  assert (match retry with RetryBool true => RetryPolicy RETRY | _ => retry end = retry) as E.
  { destruct retry as [|[]| |]; congruence. }
  unfold Client_init, mount, requests_Session. cbn [session adapters]. rewrite E.
  apply map_eq. intros k.
  destruct (decide (k = "https://")) as [->|Hk1].
  { rewrite lookup_insert_eq. rewrite lookup_insert_ne by discriminate.
    by rewrite lookup_singleton_eq. }
  rewrite lookup_insert_ne by congruence.
  destruct (decide (k = "http://")) as [->|Hk2].
  { by rewrite !lookup_insert_eq. }
  rewrite !lookup_insert_ne by congruence.
  by rewrite !lookup_singleton_ne by congruence.
Qed.

(** X24: [nonce] is the decimal text of the microsecond reading, so two
    nonces are the same text exactly when the two readings are the same
    microsecond; taking one leaves the client as it is and calls nothing. *)
Theorem nonce_distinct_iff_microseconds (s1 s2 : state) (us1 us2 : Z) (n1 n2 : string) :
  result (microseconds s1) = inr us1 ->
  result (microseconds s2) = inr us2 ->
  result (nonce s1) = inr n1 ->
  result (nonce s2) = inr n2 ->
  (n1 = n2 <-> us1 = us2) /\
  self (final (nonce s1)) = self s1 /\
  emitted (nonce s1) = [].
Proof.
  intros H1 H2 Hn1 Hn2.
  assert (n1 = pretty us1) as ->.
  { unfold nonce in Hn1. rewrite bind_run in Hn1. rewrite H1 in Hn1. by injection Hn1. }
  assert (n2 = pretty us2) as ->.
  { unfold nonce in Hn2. rewrite bind_run in Hn2. rewrite H2 in Hn2. by injection Hn2. }
  split; [|by split]. split; [apply pretty_Z_inj | by intros ->].
Qed.

(** ** The enum lookup, continued *)


Lemma getitem_inr {member : Type} (ms : list (string * member)) (n : string) (m : member) :
  getitem ms n = inr m -> In (n, m) ms.
Proof.
  induction ms as [|[n' m'] rest IH]; cbn; [discriminate|].
  destruct (String.eqb n' n) eqn:E.
  - apply String.eqb_eq in E as ->. intros [= ->]. by left.
  - intros H. right. by apply IH.
Qed.

Lemma getitem_inl {member : Type} (ms : list (string * member)) (n : string) (e : exn) :
  getitem ms n = inl e -> e = KeyError n /\ ~ In n (map fst ms).
Proof.
  induction ms as [|[n' m'] rest IH]; cbn.
  - intros [= <-]. split; [reflexivity | intros []].
  - destruct (String.eqb n' n) eqn:E; [discriminate|].
    intros H. destruct (IH H) as [-> Hnot]. split; [reflexivity|].
    intros [-> | Hin]; [|by apply Hnot]. by rewrite String.eqb_refl in E.
Qed.





(** X19: with a [_missing_] that answers [None], as [Enum]'s does when
    called directly, [check] never raises, and it answers [None] for a text
    exactly when no member goes by the formatted text. *)
Theorem check_unknown_is_None {member : Type} (cls : EnumClass member)
    (value : check_arg member) (s : string) :
  (forall value, _missing_ cls value = inr None) ->
  (exists r, check cls value = inr r) /\
  (check cls (ArgOther s) = inr None <->
   ~ In (_format_value cls s) (map fst (__members__ cls))).
Proof.
  intros Hmiss. split.
  - destruct value as [|m|s']; cbn; [by eexists..|].
    destruct (getitem _ _) as [e|m] eqn:E; [|by eexists].
    destruct (getitem_inl _ _ _ E) as [-> _]. rewrite Hmiss. by eexists.
  - cbn. destruct (getitem _ _) as [e|m] eqn:E.
    + destruct (getitem_inl _ _ _ E) as [-> Hnot]. by rewrite Hmiss.
    + split; [discriminate|]. intros Hnot. exfalso. apply Hnot.
      apply getitem_inr in E. by apply (in_map fst) in E.
Qed.

(** ** Market codes *)






Lemma remove_char_app (c : ascii) (a b : string) :
  remove_char c (a +:+ b) = remove_char c a +:+ remove_char c b.
Proof.
  induction a as [|c' a IH]; [reflexivity|].
  change (remove_char c (String c' (a +:+ b))
          = remove_char c (String c' a) +:+ remove_char c b).
  cbn. rewrite IH. by destruct (Ascii.eqb c c').
Qed.

Lemma remove_dash_free (s : string) : dash_free s -> remove_char "-" s = s.
Proof.
  unfold dash_free. induction s as [|c s IH]; [reflexivity|].
  cbn [chars remove_char]. intros Hfree.
  destruct (Ascii.eqb "-" c) eqn:E.
  - apply Ascii.eqb_eq in E. exfalso. apply Hfree. left. by symmetry.
  - rewrite IH; [reflexivity|]. intros H. apply Hfree. by right.
Qed.

Lemma remove_dash_is_dash_free (s : string) : dash_free (remove_char "-" s).
Proof.
  unfold dash_free. induction s as [|c s IH]; [intros []|].
  cbn [remove_char]. destruct (Ascii.eqb "-" c) eqn:E; [exact IH|].
  cbn [chars]. intros [Hc | Hin]; [|by apply IH].
  apply Ascii.eqb_neq in E. by apply E.
Qed.




(** X20: [_Market._format_value] does not see dashes: a text and the text
    without its dashes are formatted alike. *)
Theorem Market_format_ignores_dashes (s a b : string) :
  Market_format_value (remove_char "-" s) = Market_format_value s /\
  Market_format_value (a +:+ "-" +:+ b) = Market_format_value (a +:+ b).
Proof.
  assert (forall t, remove_char "-" (remove_char "-" t) = remove_char "-" t) as Hidem.
  { intros t. apply remove_dash_free, remove_dash_is_dash_free. }
  split; unfold Market_format_value; cbn zeta.
  - by rewrite Hidem.
  - by rewrite !remove_char_app.
Qed.





(** ** Concrete runs, continued *)

Section MoreRuns.
#[local] Existing Instance demo_platform.

Example run_market_codes :
  Market_format_value "btc-clp" = "BTC_CLP" /\
  Market_format_value "BTC_CLP" = "BTC__CLP" /\
  Market_format_value "" = "_" /\
  check Market_class (ArgOther "btcclp") = inr (Some BTC_CLP) /\
  check Market_class (ArgOther "BTC_CLP") = inr None.
Proof. vm_compute. repeat split. Qed.

Example run_nonce :
  result (nonce demo_state) = inr "1700000000000250".
Proof. vm_compute. reflexivity. Qed.

Lemma demo_get_sent :
  In (EvSend (outgoing Signed_class "get" "ticker" demo_params None demo_state)
             (answer Signed_class "get" "ticker" demo_params None demo_state))
     (emitted (_request Signed_class "get" "ticker" demo_params None demo_state)).
Proof. vm_compute. left. reflexivity. Defined.

Lemma request_call_fixed_fields_witness :
  let c := outgoing Signed_class "get" "ticker" demo_params None demo_state in
  c_method c = "get" /\
  c_url c = "https://api.example.com/v2" +:+ "/" +:+ "ticker" /\
  c_verify c = true /\
  c_timeout c = 30.
Proof.
  exact (request_call_fixed_fields Signed_class "get" "ticker" demo_params None demo_state
           _ _ demo_get_sent).
Defined.

Lemma base_class_sends_unsigned_witness :
  let c := outgoing Client_class "post" "flagged" VNone
             (Some {[ "amount" := VInt 3; "memo" := VNone ]}) demo_state in
  c_headers c = VNone /\ c_params c = VNone /\ c_data c = VStr "{amount}".
Proof.
  cbn zeta.
  assert (In (EvSend (outgoing Client_class "post" "flagged" VNone
                        (Some {[ "amount" := VInt 3; "memo" := VNone ]}) demo_state)
                     (answer Client_class "post" "flagged" VNone
                        (Some {[ "amount" := VInt 3; "memo" := VNone ]}) demo_state))
             (emitted (_request Client_class "post" "flagged" VNone
                         (Some {[ "amount" := VInt 3; "memo" := VNone ]}) demo_state)))
    as Hin by (vm_compute; left; reflexivity).
  exact (base_class_sends_unsigned "post" "flagged" VNone _ demo_state _ _ Hin).
Defined.

Lemma get_signs_empty_body_witness :
  let c := outgoing Signed_class "get" "ticker" demo_params None demo_state in
  c_method c = "get" /\
  c_headers c = VDict {[ "X-Test" := VStr "1" ]} /\
  c_params c = demo_params /\
  c_data c = VDict ∅.
Proof.
  exact (get_signs_empty_body Signed_class "ticker" demo_params demo_state _ _ demo_get_sent).
Defined.

Lemma body_verbs_send_no_params_witness :
  let data := Some {[ "amount" := VInt 3; "memo" := VNone ]} in
  let c := outgoing Signed_class "post" "flagged" VNone data demo_state in
  sends_body_only Signed_class "post" data c.
Proof.
  cbn zeta.
  destruct (body_verbs_send_no_params Signed_class "flagged"
              (Some {[ "amount" := VInt 3; "memo" := VNone ]}) demo_state
              (outgoing Signed_class "post" "flagged" VNone
                 (Some {[ "amount" := VInt 3; "memo" := VNone ]}) demo_state)
              (answer Signed_class "post" "flagged" VNone
                 (Some {[ "amount" := VInt 3; "memo" := VNone ]}) demo_state))
    as [Hpost _].
  apply Hpost. vm_compute. left. reflexivity.
Defined.

Lemma request_without_rate_limit_witness :
  enable_rate_limit Unthrottled_class = false /\
  result (milliseconds demo_state) = inr 1700000000000 /\
  last_request_timestamp
    (self (final (_request Unthrottled_class "get" "ticker" VNone None demo_state)))
    = 1700000000000.
Proof.
  assert (enable_rate_limit Unthrottled_class = false) as Hoff by reflexivity.
  assert (result (milliseconds demo_state) = inr 1700000000000) as Hnow
    by (vm_compute; reflexivity).
  split; [exact Hoff|]. split; [exact Hnow|].
  exact (proj2 (request_without_rate_limit Unthrottled_class "get" "ticker" VNone None
                  demo_state _ Hoff Hnow)).
Defined.

(** The state that one request leaves behind, from which the next call
    starts. *)
Lemma throttle_sleep_bounds_witness :
  let s := final (get Signed_class "ticker" VNone demo_state) in
  result (milliseconds s) = inr 1700000000120 /\
  In (EvSleep 880) (emitted (throttle Signed_class s)) /\
  0 < 880 /\
  (last_request_timestamp (self s) <= 1700000000120 -> 880 <= rate_limit Signed_class).
Proof.
  cbn zeta.
  assert (result (milliseconds (final (get Signed_class "ticker" VNone demo_state)))
          = inr 1700000000120) as Hnow by (vm_compute; reflexivity).
  assert (In (EvSleep 880)
            (emitted (throttle Signed_class
                        (final (get Signed_class "ticker" VNone demo_state))))) as Hin
    by (vm_compute; left; reflexivity).
  split; [exact Hnow|]. split; [exact Hin|].
  exact (throttle_sleep_bounds Signed_class _ _ _ Hnow Hin).
Defined.

Lemma fresh_client_first_request_not_delayed_witness :
  rate_limit Signed_class * 1000 <= 1700000000000000 /\
  forall ms,
    ~ In (EvSleep ms)
        (emitted (_request Signed_class "get" "ticker" VNone None
                    {| self := Client_init demo_server TIMEOUT RetryNone;
                       clock_us := 1700000000000000;
                       latencies := [250%N] |})).
Proof.
  assert (rate_limit Signed_class * 1000 <= 1700000000000000) as Hus by (cbn; lia).
  split; [exact Hus|].
  exact (fresh_client_first_request_not_delayed Signed_class demo_server TIMEOUT RetryNone
           1700000000000000 [250%N] "get" "ticker" VNone None Hus).
Defined.

Lemma throttle_postcondition_witness :
  let s := final (get Signed_class "ticker" VNone demo_state) in
  0 <= clock_us s /\
  result (milliseconds (final (throttle Signed_class s))) = inr 1700000001000 /\
  last_request_timestamp (self s) + rate_limit Signed_class <= 1700000001000.
Proof.
  cbn zeta.
  assert (0 <= clock_us (final (get Signed_class "ticker" VNone demo_state))) as Hclock
    by (vm_compute; discriminate).
  assert (result (milliseconds (final (throttle Signed_class
                    (final (get Signed_class "ticker" VNone demo_state)))))
          = inr 1700000001000) as Hnow by (vm_compute; reflexivity).
  split; [exact Hclock|]. split; [exact Hnow|].
  exact (throttle_postcondition Signed_class _ _ Hclock Hnow).
Defined.

Lemma request_stamp_precedes_exchange_witness :
  0 <= clock_us demo_state /\
  exists t,
    answer Signed_class "get" "ticker" demo_params None demo_state
      = transport t (outgoing Signed_class "get" "ticker" demo_params None demo_state) /\
    last_request_timestamp
      (self (final (_request Signed_class "get" "ticker" demo_params None demo_state))) * 1000
      <= t.
Proof.
  assert (0 <= clock_us demo_state) as Hclock by (cbn; lia).
  split; [exact Hclock|].
  exact (request_stamp_precedes_exchange Signed_class "get" "ticker" demo_params None
           demo_state _ _ Hclock demo_get_sent).
Defined.

Lemma request_url_from_server_witness :
  c_url (outgoing Signed_class "get" "ticker" demo_params None demo_state)
    = (("https" +:+ "://" +:+ "api.example.com") +:+ "/" +:+ "v2") +:+ "/" +:+ "ticker".
Proof.
  assert (SERVER (self demo_state) = Server_init "https" "api.example.com" (Some "v2"))
    as Hserver by reflexivity.
  exact (request_url_from_server Signed_class "https" "api.example.com" (Some "v2")
           "get" "ticker" demo_params None demo_state _ _ Hserver demo_get_sent).
Defined.


Lemma non_error_status_is_decoded_witness :
  result (_request Signed_class "get" "ticker" demo_params None demo_state)
    = inr (VDict {[ "result" := VInt 42 ]}).
Proof.
  assert (~ (400 <= status_code (answer Signed_class "get" "ticker" demo_params None demo_state)
             < 600)) as Hstatus by (vm_compute; intros [H _]; by apply H).
  rewrite (non_error_status_is_decoded Signed_class "get" "ticker" demo_params None
             demo_state _ _ demo_get_sent Hstatus).
  vm_compute. reflexivity.
Defined.


End MoreRuns.

Lemma Client_init_adapters_witness :
  RetryInt 5 <> RetryBool true /\
  adapters (session (Client_init demo_server TIMEOUT (RetryInt 5)))
    = {[ "http://" := {| max_retries := RetryInt 5 |};
         "https://" := {| max_retries := RetryInt 5 |} ]}.
Proof.
  assert (RetryInt 5 <> RetryBool true) as Hretry by discriminate.
  split; [exact Hretry|].
  exact (proj1 (Client_init_adapters demo_server TIMEOUT (RetryInt 5) Hretry)).
Defined.

Lemma nonce_distinct_iff_microseconds_witness :
  result (nonce demo_state) = inr "1700000000000250" /\
  result (nonce (final (microseconds demo_state))) = inr "1700000000000290" /\
  ("1700000000000250" = "1700000000000290" <-> 1700000000000250 = 1700000000000290).
Proof.
  assert (result (microseconds demo_state) = inr 1700000000000250) as H1
    by (vm_compute; reflexivity).
  assert (result (microseconds (final (microseconds demo_state))) = inr 1700000000000290) as H2
    by (vm_compute; reflexivity).
  assert (result (nonce demo_state) = inr "1700000000000250") as Hn1
    by (vm_compute; reflexivity).
  assert (result (nonce (final (microseconds demo_state))) = inr "1700000000000290") as Hn2
    by (vm_compute; reflexivity).
  split; [exact Hn1|]. split; [exact Hn2|].
  exact (proj1 (nonce_distinct_iff_microseconds _ _ _ _ _ _ H1 H2 Hn1 Hn2)).
Defined.




Lemma check_unknown_is_None_witness :
  check Currency_class (ArgOther "usd") = inr None.
Proof.
  destruct (check_unknown_is_None Currency_class ArgNone "usd" (fun _ => eq_refl))
    as [_ Hiff].
  apply Hiff. cbn. intros [H | [H | []]]; discriminate.
Defined.





